(** * LlamaIndexAgent: the llama_index adapter of any_agent

    A shallow embedding of [src/any_agent/frameworks/llama_index.py]:
    the module-level availability probe, the model factory [_get_model],
    the loader [_load_agent] and the run method [_run_async], followed by
    the properties the specification states about them.

    Python objects mutate [self] and call into the backend, so methods are
    computations in a state-and-exception monad.  The backend (llama_index),
    the tool loader of the base class and the classes named by the
    configuration are collaborators whose code is not part of the adapter;
    they are section variables acting on an abstract [World]. *)

From Stdlib Require Import String List Bool ZArith.
Import ListNotations.
Local Open Scope string_scope.

Set Implicit Arguments.

(** ** Python values, dictionaries and truthiness *)

(** The values that travel through [**kwargs] mappings and block
    attributes. *)
Inductive PyVal : Type :=
| PyNone
| PyBool (b : bool)
| PyInt (z : Z)
| PyStr (s : string).

(** A [dict] with string keys, in insertion order (Python dictionaries keep
    it, and the interpreter reports the first clashing keyword in that
    order).  A real dictionary has no repeated key; nothing below relies on
    that. *)
Definition PyDict : Type := list (string * PyVal).

Fixpoint dict_get (k : string) (d : PyDict) : option PyVal :=
  match d with
  | [] => None
  | (k', v) :: d' => if String.eqb k k' then Some v else dict_get k d'
  end.

(** Python's truth protocol ([bool(x)]), the interface behind [not x] and
    [x or y]. *)
Class Truthy (A : Type) : Type := truthy : A -> bool.

#[export] Instance Truthy_string : Truthy string :=
  fun s => match s with EmptyString => false | String _ _ => true end.

#[export] Instance Truthy_list {A : Type} : Truthy (list A) :=
  fun l => match l with [] => false | _ :: _ => true end.

(** [None] is falsy; any other value answers for itself. *)
#[export] Instance Truthy_option {A : Type} `{Truthy A} : Truthy (option A) :=
  fun o => match o with None => false | Some a => truthy a end.

(** [x or d] where [x] may be [None] and [d] is a literal. *)
Definition py_or {A : Type} `{Truthy A} (x : option A) (d : A) : A :=
  match x with
  | Some a => if truthy a then a else d
  | None => d
  end.

(** A callable object (a class or a factory).  [callable_name] is how the
    interpreter prints it in call errors; [callable_bool] is [bool(c)],
    [true] for every ordinary class and function. *)
Record Callable : Type := {
  callable_name : string;
  callable_bool : bool
}.

#[export] Instance Truthy_Callable : Truthy Callable := callable_bool.

(** ** Exceptions *)

(** A raised exception: its class and its message. *)
Inductive Exn : Type :=
| Raised (cls : string) (msg : string).

Definition ImportError : string -> Exn := Raised "ImportError".
Definition ValueError : string -> Exn := Raised "ValueError".
Definition TypeError : string -> Exn := Raised "TypeError".
Definition NameError : string -> Exn := Raised "NameError".
Definition IndexError : string -> Exn := Raised "IndexError".
Definition AttributeError : string -> Exn := Raised "AttributeError".

(** The error kinds of the specification, as the exceptions the adapter
    raises for them. *)
Definition IntegrationMissing : Exn :=
  ImportError "You need to `pip install 'any-agent[llama_index]'` to use this agent".

Definition NotLoaded : Exn :=
  ValueError "Agent not loaded. Call load_agent() first.".

Definition InvalidResponseShape (response_repr : string) : Exn :=
  ValueError ("Agent did not return a valid response: " ++ response_repr).



(** ** The state-and-exception monad *)

(** A computation over a state [S]: it ends with a value or a raised
    exception, and in both cases with the state as mutated so far. *)
Definition M (S A : Type) : Type := S -> (Exn + A) * S.

Definition ret {S A : Type} (a : A) : M S A := fun s => (inr a, s).

Definition raise {S A : Type} (e : Exn) : M S A := fun s => (inl e, s).

Definition bind {S A B : Type} (c : M S A) (k : A -> M S B) : M S B :=
  fun s =>
    match c s with
    | (inr a, s') => k a s'
    | (inl e, s') => (inl e, s')
    end.

Definition modify {S : Type} (f : S -> S) : M S unit := fun s => (inr tt, f s).

Declare Scope py_scope.
Delimit Scope py_scope with py.
Notation "x <- c ;; k" := (bind c (fun x => k))
  (at level 100, c at next level, right associativity) : py_scope.
Notation "c ;;; k" := (bind c (fun _ => k))
  (at level 100, right associativity) : py_scope.
Local Open Scope py_scope.

(** ** Backend result objects *)

(** A content block of a response: its kind and its attributes.
    [hasattr]/[getattr] are the duck-typed probes of the source. *)
Record Block : Type := {
  block_type : string;
  block_attrs : PyDict
}.

Definition getattr (b : Block) (attr : string) : option PyVal :=
  dict_get attr (block_attrs b).

Definition hasattr (b : Block) (attr : string) : bool :=
  match getattr b attr with Some _ => true | None => false end.

(** [AgentOutput.response] is a chat message holding the ordered blocks. *)
Record ChatMessage : Type := {
  role : string;
  blocks : list Block
}.

Record AgentOutput : Type := {
  response : ChatMessage
}.

(** The default classes bound by the guarded import at module level,
    under the module-qualified names the interpreter prints for them. *)
Definition FunctionAgent : Callable :=
  {| callable_name := "llama_index.core.agent.workflow.function_agent.FunctionAgent";
     callable_bool := true |}.

Definition LiteLLM : Callable :=
  {| callable_name := "llama_index.llms.litellm.base.LiteLLM"; callable_bool := true |}.

(** ** The adapter *)

Section Adapter.

(** Objects owned by collaborators: tool specifications of the
    configuration, resolved tools, the auxiliary result of the tool
    loader, model handles, backend agents, and whatever else the backend
    and the base class keep (network, MCP servers, traces). *)
Context {ToolSpec Tool Aux LLM BaseWorkflowAgent TracingConfig World : Type}.

(** [AgentConfig] (declared in [any_agent.config]); an optional field is
    [None] when unset. *)
Record AgentConfig : Type := {
  model_id : string;
  api_base : option string;
  api_key : option string;
  name : string;
  description : option string;
  instructions : option string;
  tools : list ToolSpec;
  agent_type : option Callable;
  agent_args : option PyDict;
  model_type : option Callable;
  model_args : option PyDict
}.

(** The keyword arguments of the call [model_type(...)]. *)
Record ModelKwargs : Type := {
  kw_model : string;
  kw_api_key : option string;
  kw_api_base : option string;
  kw_additional_kwargs : PyDict
}.

(** The keyword arguments of the call [agent_type(...)]: the five
    written out, and the entries unpacked from [**agent_args]. *)
Record AgentKwargs : Type := {
  kw_name : string;
  kw_tools : list Tool;
  kw_description : string;
  kw_llm : LLM;
  kw_system_prompt : option string;
  kw_extra : PyDict
}.

(** The instance attributes of [LlamaIndexAgent].  [_agent] is declared
    [BaseWorkflowAgent | None]; what it holds after a load is whatever the
    agent class returned. *)
Record LlamaIndexAgent : Type := {
  config : AgentConfig;
  _tools : list Tool;
  _agent : option BaseWorkflowAgent
}.

(** *** Collaborators *)

(** Outcome of the guarded import at the top of the module. *)
Variable llama_index_available : bool.

(** [AnyAgent._load_tools], awaited by the loader. *)
Variable _load_tools : list ToolSpec -> M World (list Tool * Aux).

(** Calling a model class and an agent class with keyword arguments. *)
Variable call_model_type : Callable -> ModelKwargs -> M World LLM.
Variable call_agent_type : Callable -> AgentKwargs -> M World BaseWorkflowAgent.

(** [bool(agent)] for a stored agent.  The backend's own agents are
    truthy; an agent built by a class named in the configuration answers
    through its [__bool__] or [__len__]. *)
Variable agent_bool : BaseWorkflowAgent -> bool.

#[local] Instance Truthy_BaseWorkflowAgent : Truthy BaseWorkflowAgent := agent_bool.

(** [BaseWorkflowAgent.run(prompt, **kwargs)], awaited. *)
Variable agent_run : BaseWorkflowAgent -> string -> PyDict -> M World AgentOutput.

(** [str(result.response)], what the f-string interpolates. *)
Variable ChatMessage_str : ChatMessage -> string.

(** What [AnyAgent.__init__] leaves in [_tools]. *)
Variable AnyAgent_init_tools : list Tool.

(** *** Module level *)

(** The two defaults are bound inside the [try] block, after both
    imports: they exist exactly when the backend is available. *)
Definition DEFAULT_AGENT_TYPE : option Callable :=
  if llama_index_available then Some FunctionAgent else None.

Definition DEFAULT_MODEL_TYPE : option Callable :=
  if llama_index_available then Some LiteLLM else None.

(** Reading a module global that may be unbound. *)
Definition global {S : Type} (gname : string) (g : option Callable) : M S Callable :=
  match g with
  | Some c => ret c
  | None => raise (NameError ("name '" ++ gname ++ "' is not defined"))
  end.

(** [x or G] for a module global [G]: [G] is only read when [x] is
    falsy. *)
Definition or_global {S : Type} (x : option Callable) (gname : string)
    (g : option Callable) : M S Callable :=
  if truthy x then
    match x with Some c => ret c | None => global gname g end
  else global gname g.

(** *** Methods *)

Definition Self : Type := (LlamaIndexAgent * World)%type.

(** A collaborator call made from a method: it acts on the world only.
    What a collaborator writes into an object it was handed (the
    [model_args] mapping goes to the model class as it is) is not
    tracked: the fields of the adapter are values here. *)
Definition await {A : Type} (c : M World A) : M Self A :=
  fun s =>
    match c (snd s) with
    | (r, w') => (r, (fst s, w'))
    end.

Definition self : M Self LlamaIndexAgent := fun s => (inr (fst s), s).

Definition set__tools (ts : list Tool) : M Self unit :=
  modify (fun s => ({| config := config (fst s); _tools := ts; _agent := _agent (fst s) |}, snd s)).

Definition set__agent (ag : option BaseWorkflowAgent) : M Self unit :=
  modify (fun s => ({| config := config (fst s); _tools := _tools (fst s); _agent := ag |}, snd s)).

(** [__init__]: the base initialiser stores the configuration (and keeps
    [tracing] for itself), then [_agent] is set to [None]. *)
Definition __init__ (cfg : AgentConfig) (tracing : option TracingConfig) : LlamaIndexAgent :=
  {| config := cfg; _tools := AnyAgent_init_tools; _agent := None |}.

(** The keyword arguments [_get_model] passes to the model class. *)
Definition model_kwargs (agent_config : AgentConfig) : ModelKwargs :=
  {| kw_model := model_id agent_config;
     kw_api_key := api_key agent_config;
     kw_api_base := api_base agent_config;
     kw_additional_kwargs := py_or (model_args agent_config) [] |}.

(** [_get_model]: the configured model class, else [DEFAULT_MODEL_TYPE],
    called with the four keyword arguments. *)
Definition _get_model (agent_config : AgentConfig) : M World LLM :=
  model_type <- or_global (model_type agent_config) "DEFAULT_MODEL_TYPE" DEFAULT_MODEL_TYPE ;;
  call_model_type model_type (model_kwargs agent_config).

(** Keywords written out in the call of [agent_type]. *)
Definition agent_keywords : list string :=
  ["name"; "tools"; "description"; "llm"; "system_prompt"].

(** Unpacking [**extra] next to the written keywords: the first key of
    [extra] that repeats one of them makes the call a [TypeError], raised
    before the callee runs. *)
Definition duplicate_keyword (extra : PyDict) : option string :=
  option_map fst
    (find (fun kv => existsb (String.eqb (fst kv)) agent_keywords) extra).

Definition unpack_kwargs {S : Type} (callee : Callable) (extra : PyDict) : M S PyDict :=
  match duplicate_keyword extra with
  | Some k =>
      raise (TypeError (callable_name callee
                          ++ "() got multiple values for keyword argument '" ++ k ++ "'"))
  | None => ret extra
  end.

(** [_load_agent]: the availability check, then the tool loader, the
    choice of the agent class, the assignment of [_tools], and the call of
    the agent class, whose arguments are evaluated in order (the model
    handle before the unpacking of [agent_args]); [_agent] is assigned
    last, when the call has returned. *)
Definition _load_agent : M Self unit :=
  if negb llama_index_available then
    raise IntegrationMissing
  else
    this <- self ;;
    loaded <- await (_load_tools (tools (config this))) ;;
    let imported_tools := fst loaded in
    agent_type <- or_global (agent_type (config this)) "DEFAULT_AGENT_TYPE" DEFAULT_AGENT_TYPE ;;
    set__tools imported_tools ;;;
    llm <- await (_get_model (config this)) ;;
    extra <- unpack_kwargs agent_type (py_or (agent_args (config this)) []) ;;
    agent <- await (call_agent_type agent_type
                      {| kw_name := name (config this);
                         kw_tools := imported_tools;
                         kw_description := py_or (description (config this)) "The main agent";
                         kw_llm := llm;
                         kw_system_prompt := instructions (config this);
                         kw_extra := extra |}) ;;
    set__agent (Some agent).

(** The test [not blocks or not hasattr(blocks[0], "text")]; [or] only
    looks at [blocks[0]] when the list is non-empty, so the indexing cannot
    fail there. *)
Definition invalid_response (r : ChatMessage) : bool :=
  if negb (truthy (blocks r)) then true
  else match nth_error (blocks r) 0 with
       | Some b0 => negb (hasattr b0 "text")
       | None => true
       end.

(** [result.response.blocks[0].text] *)
Definition first_block_text {S : Type} (r : ChatMessage) : M S PyVal :=
  match nth_error (blocks r) 0 with
  | None => raise (IndexError "list index out of range")
  | Some b0 =>
      match getattr b0 "text" with
      | Some v => ret v
      | None => raise (AttributeError "text")
      end
  end.

(** [_run_async]: the guard [not self._agent] (a truth test: [None] and
    every falsy agent), the awaited backend run, the shape test and the
    extraction.  Past the guard [_agent] is not [None]. *)
Definition _run_async (prompt : string) (kwargs : PyDict) : M Self PyVal :=
  this <- self ;;
  if negb (truthy (_agent this)) then
    raise NotLoaded
  else
    match _agent this with
    | None => raise (AttributeError "'NoneType' object has no attribute 'run'")
    | Some agent =>
        result <- await (agent_run agent prompt kwargs) ;;
        if invalid_response (response result) then
          raise (InvalidResponseShape (ChatMessage_str (response result)))
        else first_block_text (response result)
    end.

(** *** Life cycle *)

(** The adapter is [Loaded] when [_agent] holds a backend agent. *)
Definition is_loaded (a : LlamaIndexAgent) : bool :=
  match _agent a with Some _ => true | None => false end.

(** The two operations a caller can invoke on an adapter. *)
Inductive Op : Type :=
| Load
| Run (prompt : string) (kwargs : PyDict).

Definition invoke (op : Op) : M Self (option PyVal) :=
  match op with
  | Load => _load_agent ;;; ret None
  | Run prompt kwargs => v <- _run_async prompt kwargs ;; ret (Some v)
  end.

(** A caller invoking operations one after the other on the same
    adapter object, catching what each one raises: the log of outcomes
    and the final state. *)
Fixpoint session (ops : list Op) (s : Self) : list (Op * (Exn + option PyVal)) * Self :=
  match ops with
  | [] => ([], s)
  | op :: ops' =>
      match invoke op s with
      | (r, s') =>
          match session ops' s' with
          | (log, s'') => ((op, r) :: log, s'')
          end
      end
  end.

Definition load_succeeded (entry : Op * (Exn + option PyVal)) : bool :=
  match entry with
  | (Load, inr _) => true
  | _ => false
  end.

Definition with_config (cfg : AgentConfig) (a : LlamaIndexAgent) : LlamaIndexAgent :=
  {| config := cfg; _tools := _tools a; _agent := _agent a |}.

(** *** Defaulting *)

(** The keyword arguments [_load_agent] builds for the agent class, once
    the tools are resolved and the model handle is built. *)
Definition agent_kwargs (cfg : AgentConfig) (imported_tools : list Tool) (llm : LLM)
    : AgentKwargs :=
  {| kw_name := name cfg;
     kw_tools := imported_tools;
     kw_description := py_or (description cfg) "The main agent";
     kw_llm := llm;
     kw_system_prompt := instructions cfg;
     kw_extra := py_or (agent_args cfg) [] |}.

(** A falsy value of an optional field, put back to [None]. *)
Definition unset_if_falsy {A : Type} `{Truthy A} (x : option A) : option A :=
  if truthy x then x else None.

Definition unset_falsy (cfg : AgentConfig) : AgentConfig :=
  {| model_id := model_id cfg;
     api_base := api_base cfg;
     api_key := api_key cfg;
     name := name cfg;
     description := unset_if_falsy (description cfg);
     instructions := instructions cfg;
     tools := tools cfg;
     agent_type := unset_if_falsy (agent_type cfg);
     agent_args := unset_if_falsy (agent_args cfg);
     model_type := unset_if_falsy (model_type cfg);
     model_args := unset_if_falsy (model_args cfg) |}.

(** *** The loader as the specification words it *)

(** Defaulting by absence: the default stands in for an unset field
    only. *)
Definition default_when_unset {A : Type} (x : option A) (d : A) : A :=
  match x with Some a => a | None => d end.

Definition documented_agent_kwargs (cfg : AgentConfig) (imported_tools : list Tool)
    (llm : LLM) : AgentKwargs :=
  {| kw_name := name cfg;
     kw_tools := imported_tools;
     kw_description := default_when_unset (description cfg) "The main agent";
     kw_llm := llm;
     kw_system_prompt := instructions cfg;
     kw_extra := default_when_unset (agent_args cfg) [] |}.

(** A successful load, read with defaulting by absence: the stored agent
    comes from the given class (else the default one), called with the
    documented arguments. *)
Definition load_as_documented (a : LlamaIndexAgent) (w : World) : Prop :=
  forall a' w',
    _load_agent (a, w) = (inr tt, (a', w')) ->
    exists imported aux w1 llm w2 agent,
      _load_tools (tools (config a)) w = (inr (imported, aux), w1) /\
      _get_model (config a) w1 = (inr llm, w2) /\
      call_agent_type (default_when_unset (agent_type (config a)) FunctionAgent)
        (documented_agent_kwargs (config a) imported llm) w2 = (inr agent, w') /\
      a' = {| config := config a; _tools := imported; _agent := Some agent |}.

(** *** The run method as the specification words it *)



(** *** The loader, case by case *)

(** What [_load_agent] does once the backend is available, as one nest of
    cases over the outcomes of the collaborators. *)
Definition load_outcome (a : LlamaIndexAgent) (w : World)
    : (Exn + unit) * (LlamaIndexAgent * World) :=
  let cfg := config a in
  match _load_tools (tools cfg) w with
  | (inl e, w1) => (inl e, (a, w1))
  | (inr (imported, _), w1) =>
      let a1 := {| config := cfg; _tools := imported; _agent := _agent a |} in
      match _get_model cfg w1 with
      | (inl e, w2) => (inl e, (a1, w2))
      | (inr llm, w2) =>
          let cls := py_or (agent_type cfg) FunctionAgent in
          match unpack_kwargs cls (py_or (agent_args cfg) []) (a1, w2) with
          | (inl e, s) => (inl e, s)
          | (inr _, _) =>
              match call_agent_type cls (agent_kwargs cfg imported llm) w2 with
              | (inl e, w3) => (inl e, (a1, w3))
              | (inr agent, w3) =>
                  (inr tt, ({| config := cfg; _tools := imported; _agent := Some agent |}, w3))
              end
          end
      end
  end.

End Adapter.

(** ** A recording backend

    Concrete collaborators on which the adapter can be run: every call is
    written to a log (the world), model handles and agents remember the
    class and the keyword arguments they were built from, and the reply of
    an agent is fixed by the prompt. *)

Module Recording.

Definition ToolSpec : Type := string.
Definition Tool : Type := string.
Definition World : Type := list string.
Definition LLM : Type := (Callable * ModelKwargs)%type.
Definition Agent : Type := (Callable * @AgentKwargs Tool LLM)%type.

Definition log {A : Type} (entry : string) (r : Exn + A) : M World A :=
  fun w => (r, entry :: w).

Definition ToolNotFound : Exn := Raised "ToolNotFound" "no such tool: missing".

(** Resolves every specification except ["missing"]. *)
Definition _load_tools (specs : list ToolSpec) : M World (list Tool * unit) :=
  if existsb (String.eqb "missing") specs then log "load_tools" (inl ToolNotFound)
  else log "load_tools" (inr (map (fun t => "tool:" ++ t) specs, tt)).

Definition call_model_type (cls : Callable) (kw : ModelKwargs) : M World LLM :=
  log ("model:" ++ callable_name cls) (inr (cls, kw)).

Definition call_agent_type (cls : Callable) (kw : @AgentKwargs Tool LLM) : M World Agent :=
  log ("agent:" ++ callable_name cls) (inr (cls, kw)).

Definition text_block (s : string) : Block :=
  {| block_type := "text"; block_attrs := [("text", PyStr s)] |}.

Definition image_block (url : string) : Block :=
  {| block_type := "image"; block_attrs := [("url", PyStr url)] |}.

Definition reply (bs : list Block) : Exn + AgentOutput :=
  inr {| response := {| role := "assistant"; blocks := bs |} |}.

(** A class of the user's own whose instances have the length of their
    tool list: without tools they are falsy.  Every other agent is
    truthy. *)
Definition ToolBox : Callable :=
  {| callable_name := "toolbox.ToolBox"; callable_bool := true |}.

Definition agent_bool (agent : Agent) : bool :=
  if String.eqb (callable_name (fst agent)) "toolbox.ToolBox" then truthy (kw_tools (snd agent))
  else true.

Definition agent_run (agent : Agent) (prompt : string) (kwargs : PyDict)
    : M World AgentOutput :=
  if String.eqb prompt "" then log "run" (reply [])
  else if String.eqb prompt "draw" then log "run" (reply [image_block "http://img/1"; text_block "done"])
  else if String.eqb prompt "crash" then log "run" (inl (Raised "RuntimeError" "backend failure"))
  else log "run" (reply [text_block prompt]).

Definition block_text (b : Block) : string :=
  match getattr b "text" with Some (PyStr s) => s | _ => "" end.

Definition ChatMessage_str (m : ChatMessage) : string :=
  role m ++ ": " ++ String.concat "" (map block_text (blocks m)).

Definition cfg0 : @AgentConfig ToolSpec :=
  {| model_id := "gpt-4o";
     api_base := None;
     api_key := Some "sk-test";
     name := "any_agent";
     description := None;
     instructions := Some "Be brief.";
     tools := ["search"];
     agent_type := None;
     agent_args := None;
     model_type := None;
     model_args := None |}.

Definition set_description (d : option string) (c : @AgentConfig ToolSpec) : AgentConfig :=
  {| model_id := model_id c; api_base := api_base c; api_key := api_key c;
     name := name c; description := d; instructions := instructions c;
     tools := tools c; agent_type := agent_type c; agent_args := agent_args c;
     model_type := model_type c; model_args := model_args c |}.

Definition set_tools (ts : list ToolSpec) (c : @AgentConfig ToolSpec) : AgentConfig :=
  {| model_id := model_id c; api_base := api_base c; api_key := api_key c;
     name := name c; description := description c; instructions := instructions c;
     tools := ts; agent_type := agent_type c; agent_args := agent_args c;
     model_type := model_type c; model_args := model_args c |}.

(** An empty description, and a tool the loader cannot resolve. *)
Definition empty_description : @AgentConfig ToolSpec := set_description (Some "") cfg0.

Definition missing_tool : @AgentConfig ToolSpec := set_tools ["missing"] cfg0.

(** The user's [ToolBox] class and no tool. *)
Definition empty_toolbox : @AgentConfig ToolSpec :=
  {| model_id := "gpt-4o";
     api_base := None;
     api_key := Some "sk-test";
     name := "any_agent";
     description := None;
     instructions := Some "Be brief.";
     tools := [];
     agent_type := Some ToolBox;
     agent_args := None;
     model_type := None;
     model_args := None |}.

Definition new (cfg : @AgentConfig ToolSpec) : @LlamaIndexAgent ToolSpec Tool Agent :=
  __init__ [] cfg (@None unit).

Definition load (available : bool) : M (@Self ToolSpec Tool Agent World) unit :=
  _load_agent available _load_tools call_model_type call_agent_type.

Definition run (prompt : string) (kwargs : PyDict) : M (@Self ToolSpec Tool Agent World) PyVal :=
  _run_async agent_bool agent_run ChatMessage_str prompt kwargs.

(** The state an adapter built from [cfg] is in after a load. *)
Definition loaded (cfg : @AgentConfig ToolSpec) : @Self ToolSpec Tool Agent World :=
  snd (load true (new cfg, [])).

End Recording.

(** ** A backend that fails

    Collaborators for the failure paths, over the same world as the
    recording backend: a model class and an agent class that raise, and a
    tool server that answers once and is unreachable afterwards. *)

Module Faulty.

Definition BrokenLLM : Callable :=
  {| callable_name := "providers.BrokenLLM"; callable_bool := true |}.


Definition AuthenticationError : Exn := Raised "AuthenticationError" "invalid api key".

Definition ValidationError : Exn := Raised "ValidationError" "tools: field required".

Definition ConnectionError : Exn := Raised "ConnectionError" "tool server unreachable".

Definition call_model_type (cls : Callable) (kw : ModelKwargs)
    : M Recording.World Recording.LLM :=
  if String.eqb (callable_name cls) "providers.BrokenLLM" then
    Recording.log "model:BrokenLLM" (inl AuthenticationError)
  else Recording.call_model_type cls kw.

Definition call_agent_type (cls : Callable) (kw : @AgentKwargs Recording.Tool Recording.LLM)
    : M Recording.World Recording.Agent :=
  if String.eqb (callable_name cls) "providers.BrokenAgent" then
    Recording.log "agent:BrokenAgent" (inl ValidationError)
  else Recording.call_agent_type cls kw.

(** Resolves tools as long as the log shows no earlier resolution. *)
Definition _load_tools (specs : list Recording.ToolSpec)
    : M Recording.World (list Recording.Tool * unit) :=
  fun w =>
    if existsb (String.eqb "load_tools") w then
      Recording.log "load_tools" (inl ConnectionError) w
    else Recording._load_tools specs w.

Definition configure (model_cls agent_cls : option Callable) (args : option PyDict)
    : @AgentConfig Recording.ToolSpec :=
  {| model_id := "gpt-4o";
     api_base := Some "http://localhost:4000";
     api_key := None;
     name := "helper";
     description := Some "Answers questions";
     instructions := None;
     tools := ["search"; "calc"];
     agent_type := agent_cls;
     agent_args := args;
     model_type := model_cls;
     model_args := Some [("temperature", PyInt 0)] |}.

Definition broken_model : @AgentConfig Recording.ToolSpec :=
  configure (Some BrokenLLM) None None.


Definition extra_args : @AgentConfig Recording.ToolSpec :=
  configure None None (Some [("timeout", PyInt 30); ("verbose", PyBool true)]).


Definition load : M (@Self Recording.ToolSpec Recording.Tool Recording.Agent Recording.World) unit :=
  _load_agent true Recording._load_tools call_model_type call_agent_type.

(** Loading against the tool server that answers once. *)
Definition load_once : M (@Self Recording.ToolSpec Recording.Tool Recording.Agent Recording.World) unit :=
  _load_agent true _load_tools Recording.call_model_type Recording.call_agent_type.

Definition after_first_load : @Self Recording.ToolSpec Recording.Tool Recording.Agent Recording.World :=
  snd (load_once (Recording.new Recording.cfg0, [])).

End Faulty.

(** ** Properties *)

Unset Implicit Arguments.

Section Properties.

Context {ToolSpec Tool Aux LLM BaseWorkflowAgent TracingConfig World : Type}.

Variable llama_index_available : bool.
Variable load_tools : list ToolSpec -> M World (list Tool * Aux).
Variable call_model_type : Callable -> ModelKwargs -> M World LLM.
Variable call_agent_type : Callable -> @AgentKwargs Tool LLM -> M World BaseWorkflowAgent.
Variable agent_bool : BaseWorkflowAgent -> bool.
Variable agent_run : BaseWorkflowAgent -> string -> PyDict -> M World AgentOutput.
Variable ChatMessage_str : ChatMessage -> string.
Variable AnyAgent_init_tools : list Tool.

Local Abbreviation Adapter := (@LlamaIndexAgent ToolSpec Tool BaseWorkflowAgent).
Local Abbreviation load :=
  (_load_agent llama_index_available load_tools call_model_type call_agent_type).
Local Abbreviation get_model := (_get_model llama_index_available call_model_type).
Local Abbreviation run :=
  (_run_async (ToolSpec := ToolSpec) (Tool := Tool) agent_bool agent_run ChatMessage_str).
Local Abbreviation history :=
  (session llama_index_available load_tools call_model_type call_agent_type
     agent_bool agent_run ChatMessage_str).
Local Abbreviation new :=
  (__init__ (ToolSpec := ToolSpec) (BaseWorkflowAgent := BaseWorkflowAgent)
     (TracingConfig := TracingConfig) AnyAgent_init_tools).

Implicit Types (a : Adapter) (w : World) (cfg c : @AgentConfig ToolSpec).

(** *** Defaults *)

Lemma or_global_bound {S : Type} (x : option Callable) gname d (s : S) :
  or_global x gname (Some d) s = (inr (py_or x d), s).
Proof.
  unfold or_global, py_or. cbv [truthy Truthy_option Truthy_Callable].
  destruct x as [c|]; [destruct (callable_bool c)|]; reflexivity.
Qed.

Lemma or_global_unset_falsy {S : Type} (x : option Callable) gname g :
  @or_global S (unset_if_falsy x) gname g = or_global x gname g.
Proof.
  unfold or_global, unset_if_falsy.
  destruct (truthy x) eqn:T; [rewrite T; reflexivity | reflexivity].
Qed.

Lemma py_or_unset_falsy {A : Type} `{Truthy A} (x : option A) (d : A) :
  py_or (unset_if_falsy x) d = py_or x d.
Proof.
  unfold unset_if_falsy, py_or, truthy at 1, Truthy_option.
  destruct x as [v|]; [|reflexivity].
  destruct (truthy v) eqn:T; [rewrite T|]; reflexivity.
Qed.

(** *** The loader, case by case *)

Lemma load_available a w :
  llama_index_available = true ->
  load (a, w) = load_outcome llama_index_available load_tools call_model_type call_agent_type a w.
Proof.
  intros Av. unfold _load_agent, load_outcome. rewrite Av. cbn [negb]. cbv beta.
  unfold bind, self, await, set__tools, set__agent, modify, DEFAULT_AGENT_TYPE, agent_kwargs.
  cbn [fst snd].
  destruct (load_tools (tools (config a)) w) as [[e|[imported aux]] w1]; [reflexivity|].
  rewrite or_global_bound. cbn [fst snd].
  destruct (_get_model true call_model_type (config a) w1) as [[e|llm] w2]; [reflexivity|].
  unfold unpack_kwargs, raise, ret.
  destruct (duplicate_keyword (py_or (agent_args (config a)) [])) as [k|]; [reflexivity|].
  cbn [fst snd].
  destruct (call_agent_type _ _ w2) as [[e|agent] w3]; reflexivity.
Qed.

Lemma load_not_available a w :
  llama_index_available = false -> load (a, w) = (inl IntegrationMissing, (a, w)).
Proof. intros Av. unfold _load_agent. rewrite Av. reflexivity. Qed.

(** *** The run method, case by case *)

Lemma run_not_loaded a w prompt kwargs :
  _agent a = None -> run prompt kwargs (a, w) = (inl NotLoaded, (a, w)).
Proof.
  intros E. unfold _run_async, bind, self. cbn [fst snd]. rewrite E. reflexivity.
Qed.

Lemma run_falsy_agent a w agent prompt kwargs :
  _agent a = Some agent ->
  agent_bool agent = false ->
  run prompt kwargs (a, w) = (inl NotLoaded, (a, w)).
Proof.
  intros E Hb. unfold _run_async, bind, self. cbn [fst snd]. rewrite E.
  cbv [truthy Truthy_option Truthy_BaseWorkflowAgent]. rewrite Hb. reflexivity.
Qed.

Lemma run_loaded a w agent prompt kwargs :
  _agent a = Some agent ->
  agent_bool agent = true ->
  run prompt kwargs (a, w) =
  match agent_run agent prompt kwargs w with
  | (inl e, w') => (inl e, (a, w'))
  | (inr result, w') =>
      if invalid_response (response result) then
        (inl (InvalidResponseShape (ChatMessage_str (response result))), (a, w'))
      else first_block_text (response result) (a, w')
  end.
Proof.
  intros E Hb. unfold _run_async, bind, self, await. cbn [fst snd]. rewrite E.
  cbv [truthy Truthy_option Truthy_BaseWorkflowAgent]. rewrite Hb.
  cbn [negb fst snd].
  destruct (agent_run agent prompt kwargs w) as [[e|result] w']; [reflexivity|].
  destruct (invalid_response (response result)); reflexivity.
Qed.

Lemma first_block_text_state {S : Type} (r : ChatMessage) (s : S) :
  snd (first_block_text r s) = s.
Proof.
  unfold first_block_text.
  destruct (nth_error (blocks r) 0) as [b0|]; [|reflexivity].
  destruct (getattr b0 "text"); reflexivity.
Qed.

Lemma valid_first_text {S : Type} (r : ChatMessage) b0 rest v (s : S) :
  blocks r = b0 :: rest -> getattr b0 "text" = Some v ->
  invalid_response r = false /\ first_block_text r s = (inr v, s).
Proof.
  intros Eb Et. unfold invalid_response, first_block_text, hasattr.
  rewrite Eb. cbn. rewrite Et. split; reflexivity.
Qed.


Lemma run_keeps_adapter a w prompt kwargs :
  fst (snd (run prompt kwargs (a, w))) = a.
Proof.
  destruct (_agent a) as [agent|] eqn:E.
  - destruct (agent_bool agent) eqn:Hb.
    + rewrite (run_loaded _ _ _ _ _ E Hb).
      destruct (agent_run agent prompt kwargs w) as [[e|result] w']; [reflexivity|].
      destruct (invalid_response (response result)); [reflexivity|].
      rewrite first_block_text_state. reflexivity.
    + rewrite (run_falsy_agent _ _ _ _ _ E Hb). reflexivity.
  - rewrite (run_not_loaded _ _ _ _ E). reflexivity.
Qed.

(** *** Run *)



(** C3. On an adapter whose [_agent] is still [None], [run] raises the
    [ValueError] with message "Agent not loaded. Call load_agent() first."
    for every prompt, the empty one included, and changes nothing. *)
Theorem run_before_load a w prompt kwargs :
  _agent a = None ->
  run prompt kwargs (a, w)
  = (inl (ValueError "Agent not loaded. Call load_agent() first."), (a, w))
  /\ run "" kwargs (a, w)
     = (inl (ValueError "Agent not loaded. Call load_agent() first."), (a, w)).
Proof.
  intros E. split; apply run_not_loaded; exact E.
Qed.

(** C9. [run] never writes the adapter: whatever the prompt, the options
    and the behaviour of the backend, and whether it returns or raises, the
    adapter ([config], [_tools] and [_agent]) is the same after the call
    as before. *)
Theorem run_frame a w prompt kwargs :
  fst (snd (run prompt kwargs (a, w))) = a
  /\ _agent (fst (snd (run prompt kwargs (a, w)))) = _agent a
  /\ _tools (fst (snd (run prompt kwargs (a, w)))) = _tools a.
Proof.
  rewrite run_keeps_adapter. repeat split.
Qed.

(** *** Load *)

(** C8. When the tool loader raises, [load] raises that very exception:
    the adapter is unchanged and the world is as the tool loader left
    it. *)
Theorem load_tools_error_propagates a w e w1 :
  llama_index_available = true ->
  load_tools (tools (config a)) w = (inl e, w1) ->
  load (a, w) = (inl e, (a, w1)).
Proof.
  intros Av E. rewrite (load_available _ _ Av). unfold load_outcome.
  rewrite E. reflexivity.
Qed.

Lemma load_success_inv a w a' w' :
  load (a, w) = (inr tt, (a', w')) ->
  llama_index_available = true /\
  exists imported aux w1 llm w2 agent,
    load_tools (tools (config a)) w = (inr (imported, aux), w1) /\
    get_model (config a) w1 = (inr llm, w2) /\
    duplicate_keyword (py_or (agent_args (config a)) []) = None /\
    call_agent_type (py_or (agent_type (config a)) FunctionAgent)
      (agent_kwargs (config a) imported llm) w2 = (inr agent, w') /\
    a' = {| config := config a; _tools := imported; _agent := Some agent |}.
Proof.
  intros H.
  destruct (Bool.bool_dec llama_index_available true) as [Av|Nv].
  2:{ apply Bool.not_true_is_false in Nv.
      rewrite (load_not_available _ _ Nv) in H. discriminate H. }
  split; [exact Av|].
  rewrite (load_available _ _ Av) in H. unfold load_outcome in H.
  destruct (load_tools (tools (config a)) w) as [[e|[imported aux]] w1] eqn:Et;
    [discriminate H|].
  cbv zeta in H.
  destruct (get_model (config a) w1) as [[e|llm] w2] eqn:Em; [discriminate H|].
  unfold unpack_kwargs, raise, ret in H.
  destruct (duplicate_keyword (py_or (agent_args (config a)) [])) as [k|] eqn:Ek;
    [discriminate H|].
  destruct (call_agent_type (py_or (agent_type (config a)) FunctionAgent)
              (agent_kwargs (config a) imported llm) w2) as [[e|agent] w3] eqn:Ec;
    [discriminate H|].
  injection H as <- <-.
  exists imported, aux, w1, llm, w2, agent.
  repeat apply conj; reflexivity || assumption.
Qed.

Lemma py_or_dict (x : option PyDict) : py_or x [] = default_when_unset x [].
Proof. destruct x as [[|kv d]|]; reflexivity. Qed.

(** *** Model factory *)

(** C5. Two configurations that agree on [model_id], [api_key],
    [api_base] and [model_args] make [_get_model] call the model class with
    the same keyword arguments, whatever their other fields hold (tools,
    names, classes): the handles they obtain are built from one and the same
    model id, key, base and extra arguments, the latter being the empty
    mapping when [model_args] is unset.  If they also name the same model
    class, [_get_model] behaves identically on both. *)
Theorem model_factory_field_mapping c1 c2 :
  model_id c1 = model_id c2 ->
  api_key c1 = api_key c2 ->
  api_base c1 = api_base c2 ->
  model_args c1 = model_args c2 ->
  (forall w h1 w1 h2 w2,
      get_model c1 w = (inr h1, w1) ->
      get_model c2 w = (inr h2, w2) ->
      exists cls1 cls2 kw,
        call_model_type cls1 kw w = (inr h1, w1) /\
        call_model_type cls2 kw w = (inr h2, w2) /\
        kw_model kw = model_id c1 /\
        kw_api_key kw = api_key c1 /\
        kw_api_base kw = api_base c1 /\
        kw_additional_kwargs kw = default_when_unset (model_args c1) [] /\
        (model_args c1 = None -> kw_additional_kwargs kw = []))
  /\ (model_type c1 = model_type c2 -> forall w, get_model c1 w = get_model c2 w).
Proof.
  intros Eid Ekey Ebase Eargs.
  assert (Ekw : model_kwargs c1 = model_kwargs c2).
  { unfold model_kwargs. rewrite Eid, Ekey, Ebase, Eargs. reflexivity. }
  split.
  - intros w h1 w1 h2 w2 H1 H2.
    unfold _get_model, bind in H1, H2. rewrite <- Ekw in H2.
    destruct (or_global (model_type c1) "DEFAULT_MODEL_TYPE"
                (DEFAULT_MODEL_TYPE llama_index_available) w)
      as [[e|cls1] u1] eqn:G1; [discriminate H1|].
    destruct (or_global (model_type c2) "DEFAULT_MODEL_TYPE"
                (DEFAULT_MODEL_TYPE llama_index_available) w)
      as [[e|cls2] u2] eqn:G2; [discriminate H2|].
    assert (u1 = w /\ u2 = w) as [-> ->].
    { unfold or_global, global, ret, raise in G1, G2.
      split.
      - destruct (truthy (model_type c1)), (model_type c1),
          (DEFAULT_MODEL_TYPE llama_index_available); congruence.
      - destruct (truthy (model_type c2)), (model_type c2),
          (DEFAULT_MODEL_TYPE llama_index_available); congruence. }
    exists cls1, cls2, (model_kwargs c1).
    repeat apply conj; try assumption; try reflexivity.
    + cbn. apply py_or_dict.
    + intros En. cbn. rewrite En. reflexivity.
  - intros Ety w. unfold _get_model. rewrite Ety, Ekw. reflexivity.
Qed.

(** *** Agent construction *)

(** C6, as the code has it.  A successful [load] resolved the tools, built
    the model handle with [_get_model], and called the agent class with
    the configuration's [name], the resolved tools, the handle, the
    [instructions] as system prompt and the entries of [agent_args] (none
    when unset); the class is the configured [agent_type] unless that is
    unset or falsy, in which case it is [FunctionAgent], and the
    description is the configured one unless that is unset or empty, in
    which case it is "The main agent".  The agent so built is stored in
    [_agent], the resolved tools in [_tools]. *)
Theorem load_constructs_agent a w a' w' :
  load (a, w) = (inr tt, (a', w')) ->
  exists imported aux w1 llm w2 agent,
    load_tools (tools (config a)) w = (inr (imported, aux), w1) /\
    get_model (config a) w1 = (inr llm, w2) /\
    call_agent_type (py_or (agent_type (config a)) FunctionAgent)
      {| kw_name := name (config a);
         kw_tools := imported;
         kw_description := py_or (description (config a)) "The main agent";
         kw_llm := llm;
         kw_system_prompt := instructions (config a);
         kw_extra := default_when_unset (agent_args (config a)) [] |} w2
    = (inr agent, w') /\
    a' = {| config := config a; _tools := imported; _agent := Some agent |}.
Proof.
  intros H.
  destruct (load_success_inv _ _ _ _ H)
    as (_ & imported & aux & w1 & llm & w2 & agent & Ht & Hm & _ & Hc & Ha).
  exists imported, aux, w1, llm, w2, agent.
  unfold agent_kwargs in Hc. rewrite py_or_dict in Hc.
  repeat apply conj; assumption.
Qed.

(** *** Life cycle *)

Lemma load_agent_after a w :
  match fst (load (a, w)) with
  | inr _ => is_loaded (fst (snd (load (a, w)))) = true
  | inl _ => _agent (fst (snd (load (a, w)))) = _agent a
  end.
Proof.
  destruct (Bool.bool_dec llama_index_available true) as [Av|Nv].
  - rewrite (load_available _ _ Av). unfold load_outcome.
    destruct (load_tools (tools (config a)) w) as [[e|[imported aux]] w1]; [reflexivity|].
    cbv zeta.
    destruct (get_model (config a) w1) as [[e|llm] w2]; [reflexivity|].
    unfold unpack_kwargs, raise, ret.
    destruct (duplicate_keyword (py_or (agent_args (config a)) [])); [reflexivity|].
    destruct (call_agent_type _ _ w2) as [[e|agent] w3]; reflexivity.
  - apply Bool.not_true_is_false in Nv.
    rewrite (load_not_available _ _ Nv). reflexivity.
Qed.

Lemma invoke_loaded (op : Op) (s : @Self ToolSpec Tool BaseWorkflowAgent World) :
  is_loaded (fst (snd (invoke llama_index_available load_tools call_model_type
                         call_agent_type agent_bool agent_run ChatMessage_str op s)))
  = is_loaded (fst s)
    || load_succeeded (op, fst (invoke llama_index_available load_tools call_model_type
                                  call_agent_type agent_bool agent_run ChatMessage_str op s)).
Proof.
  destruct s as [a w]. destruct op as [|prompt kwargs]; unfold invoke, bind.
  - pose proof (load_agent_after a w) as H.
    destruct (load (a, w)) as [[e|[]] [a' w']]; cbn [fst snd] in *.
    + unfold is_loaded. rewrite H. cbn. rewrite Bool.orb_false_r. reflexivity.
    + cbn. rewrite H. rewrite Bool.orb_true_r. reflexivity.
  - pose proof (run_keeps_adapter a w prompt kwargs) as H.
    destruct (run prompt kwargs (a, w)) as [[e|v] [a' w']]; cbn [fst snd] in *;
      subst a'; cbn; rewrite Bool.orb_false_r; reflexivity.
Qed.

Lemma history_loaded (ops : list Op) :
  forall s : @Self ToolSpec Tool BaseWorkflowAgent World,
    is_loaded (fst (snd (history ops s)))
    = is_loaded (fst s) || existsb load_succeeded (fst (history ops s)).
Proof.
  induction ops as [|op ops IH]; intros s; cbn [session].
  - cbn. rewrite Bool.orb_false_r. reflexivity.
  - pose proof (invoke_loaded op s) as Hop.
    destruct (invoke _ _ _ _ _ _ _ op s) as [r s'].
    specialize (IH s').
    destruct (history ops s') as [log s''].
    cbn [fst snd existsb] in *.
    rewrite IH, Hop, Bool.orb_assoc. reflexivity.
Qed.

Lemma load_ignores_state a1 a2 w :
  config a1 = config a2 ->
  fst (load (a1, w)) = fst (load (a2, w))
  /\ snd (snd (load (a1, w))) = snd (snd (load (a2, w)))
  /\ (fst (load (a1, w)) = inr tt ->
      fst (snd (load (a1, w))) = fst (snd (load (a2, w)))).
Proof.
  intros Ec.
  destruct (Bool.bool_dec llama_index_available true) as [Av|Nv].
  - rewrite !(load_available _ _ Av). unfold load_outcome. rewrite <- Ec.
    destruct (load_tools (tools (config a1)) w) as [[e|[imported aux]] w1].
    { cbn. repeat apply conj; try reflexivity. discriminate. }
    cbv zeta.
    destruct (get_model (config a1) w1) as [[e|llm] w2].
    { cbn. repeat apply conj; try reflexivity. discriminate. }
    unfold unpack_kwargs, raise, ret.
    destruct (duplicate_keyword (py_or (agent_args (config a1)) [])).
    { cbn. repeat apply conj; try reflexivity. discriminate. }
    destruct (call_agent_type _ _ w2) as [[e|agent] w3];
      cbn; repeat apply conj; try reflexivity; discriminate.
  - apply Bool.not_true_is_false in Nv.
    rewrite !(load_not_available _ _ Nv). cbn.
    repeat apply conj; try reflexivity; discriminate.
Qed.

(** C7. The life cycle of an adapter.  A fresh adapter is unloaded.
    Whatever sequence of loads and runs a caller performs on it, it is
    loaded at the end exactly when one of the loads succeeded, and as long
    as none has, every run raises the not-loaded error.  A load that
    succeeds, on an adapter already loaded or not, leaves in [_agent] the
    agent its own call of the agent class returned; a load does not look
    at what was stored before: from two adapters with the same
    configuration it has the same outcome and effect, and on success the
    same final adapter. *)
Theorem load_state_machine :
  (forall cfg tracing, _agent (new cfg tracing) = None)
  /\ (forall ops cfg tracing w,
        is_loaded (fst (snd (history ops (new cfg tracing, w))))
        = existsb load_succeeded (fst (history ops (new cfg tracing, w))))
  /\ (forall ops cfg tracing w prompt kwargs,
        existsb load_succeeded (fst (history ops (new cfg tracing, w))) = false ->
        run prompt kwargs (snd (history ops (new cfg tracing, w)))
        = (inl NotLoaded, snd (history ops (new cfg tracing, w))))
  /\ (forall a w a' w',
        load (a, w) = (inr tt, (a', w')) ->
        exists cls kw w2 agent,
          call_agent_type cls kw w2 = (inr agent, w') /\ _agent a' = Some agent)
  /\ (forall a1 a2 w,
        config a1 = config a2 ->
        fst (load (a1, w)) = fst (load (a2, w))
        /\ snd (snd (load (a1, w))) = snd (snd (load (a2, w)))
        /\ (fst (load (a1, w)) = inr tt ->
            fst (snd (load (a1, w))) = fst (snd (load (a2, w))))).
Proof.
  repeat apply conj.
  - reflexivity.
  - intros ops cfg tracing w. rewrite history_loaded. reflexivity.
  - intros ops cfg tracing w prompt kwargs Hnone.
    pose proof (history_loaded ops (new cfg tracing, w)) as Hl.
    rewrite Hnone in Hl. cbn in Hl.
    destruct (snd (history ops (new cfg tracing, w))) as [a w'] eqn:Es.
    cbn [fst] in Hl. apply run_not_loaded.
    unfold is_loaded in Hl. destruct (_agent a); [discriminate Hl | reflexivity].
  - intros a w a' w' H.
    destruct (load_success_inv _ _ _ _ H)
      as (_ & imported & aux & w1 & llm & w2 & agent & _ & _ & _ & Hc & ->).
    exists (py_or (agent_type (config a)) FunctionAgent),
      (agent_kwargs (config a) imported llm), w2, agent.
    split; [exact Hc | reflexivity].
  - apply load_ignores_state.
Qed.

(** *** Defaulting by falsiness *)

Lemma unset_if_falsy_falsy {A : Type} `{Truthy A} (x : option A) :
  truthy x = false -> unset_if_falsy x = None.
Proof. intros E. unfold unset_if_falsy. rewrite E. reflexivity. Qed.

Lemma py_or_falsy {A : Type} `{Truthy A} (x : option A) (d : A) :
  truthy x = false -> py_or x d = d.
Proof.
  unfold py_or. destruct x as [v|]; [|reflexivity].
  intros E. change (truthy v = false) in E. rewrite E. reflexivity.
Qed.

Lemma model_kwargs_unset_falsy cfg : model_kwargs (unset_falsy cfg) = model_kwargs cfg.
Proof.
  unfold model_kwargs, unset_falsy. cbn [model_id api_key api_base model_args].
  rewrite py_or_unset_falsy. reflexivity.
Qed.

Lemma agent_kwargs_unset_falsy cfg (imported : list Tool) (llm : LLM) :
  agent_kwargs (unset_falsy cfg) imported llm = agent_kwargs cfg imported llm.
Proof.
  unfold agent_kwargs, unset_falsy. cbn [name description instructions agent_args].
  rewrite !py_or_unset_falsy. reflexivity.
Qed.

Lemma get_model_unset_falsy cfg w : get_model (unset_falsy cfg) w = get_model cfg w.
Proof.
  unfold _get_model. rewrite model_kwargs_unset_falsy.
  unfold unset_falsy at 1. cbn [model_type].
  rewrite or_global_unset_falsy. reflexivity.
Qed.

Lemma get_model_default cfg w :
  llama_index_available = true ->
  get_model cfg w = call_model_type (py_or (model_type cfg) LiteLLM) (model_kwargs cfg) w.
Proof.
  intros Av. unfold _get_model, bind, DEFAULT_MODEL_TYPE. rewrite Av, or_global_bound.
  reflexivity.
Qed.

Lemma load_unset_falsy a w :
  fst (load (with_config (unset_falsy (config a)) a, w)) = fst (load (a, w))
  /\ snd (snd (load (with_config (unset_falsy (config a)) a, w))) = snd (snd (load (a, w)))
  /\ _tools (fst (snd (load (with_config (unset_falsy (config a)) a, w))))
     = _tools (fst (snd (load (a, w))))
  /\ _agent (fst (snd (load (with_config (unset_falsy (config a)) a, w))))
     = _agent (fst (snd (load (a, w)))).
Proof.
  destruct (Bool.bool_dec llama_index_available true) as [Av|Nv].
  - rewrite !(load_available _ _ Av). unfold load_outcome.
    cbn [with_config config _agent _tools].
    replace (tools (unset_falsy (config a))) with (tools (config a)) by reflexivity.
    replace (agent_type (unset_falsy (config a)))
      with (unset_if_falsy (agent_type (config a))) by reflexivity.
    replace (agent_args (unset_falsy (config a)))
      with (unset_if_falsy (agent_args (config a))) by reflexivity.
    rewrite !py_or_unset_falsy.
    destruct (load_tools (tools (config a)) w) as [[e|[imported aux]] w1].
    { cbn. repeat apply conj; reflexivity. }
    cbv zeta. rewrite get_model_unset_falsy.
    destruct (get_model (config a) w1) as [[e|llm] w2].
    { cbn. repeat apply conj; reflexivity. }
    unfold unpack_kwargs, raise, ret.
    destruct (duplicate_keyword (py_or (agent_args (config a)) [])).
    { cbn. repeat apply conj; reflexivity. }
    rewrite agent_kwargs_unset_falsy.
    destruct (call_agent_type _ _ w2) as [[e|agent] w3];
      cbn; repeat apply conj; reflexivity.
  - apply Bool.not_true_is_false in Nv.
    rewrite !(load_not_available _ _ Nv). cbn. repeat apply conj; reflexivity.
Qed.

(** C10. Defaults stand in for falsy values, not only for unset ones.
    A successful [load] of a configuration whose description is the empty
    string built the agent with description "The main agent"; with a falsy
    [agent_type] it called [FunctionAgent], with empty [agent_args] it
    passed no extra argument.  With a falsy [model_type] the model factory
    calls [LiteLLM], with empty [model_args] it passes the empty mapping.
    In general, resetting every falsy value among [description],
    [model_args], [agent_args], [model_type] and [agent_type] to [None]
    changes neither what [_get_model] does nor the outcome of [load], its
    effect on the world, and the tools and agent it stores. *)
Theorem defaulting_by_falsiness :
  (forall a w a' w',
      load (a, w) = (inr tt, (a', w')) ->
      exists cls kw w2 agent,
        call_agent_type cls kw w2 = (inr agent, w')
        /\ _agent a' = Some agent
        /\ (description (config a) = Some "" -> kw_description kw = "The main agent")
        /\ (truthy (agent_type (config a)) = false -> cls = FunctionAgent)
        /\ (truthy (agent_args (config a)) = false -> kw_extra kw = []))
  /\ (forall cfg w,
        llama_index_available = true ->
        exists cls kw,
          get_model cfg w = call_model_type cls kw w
          /\ (truthy (model_type cfg) = false -> cls = LiteLLM)
          /\ (truthy (model_args cfg) = false -> kw_additional_kwargs kw = []))
  /\ (forall cfg,
        (truthy (description cfg) = false -> description (unset_falsy cfg) = None)
        /\ (truthy (model_args cfg) = false -> model_args (unset_falsy cfg) = None)
        /\ (truthy (agent_args cfg) = false -> agent_args (unset_falsy cfg) = None)
        /\ (truthy (model_type cfg) = false -> model_type (unset_falsy cfg) = None)
        /\ (truthy (agent_type cfg) = false -> agent_type (unset_falsy cfg) = None))
  /\ (forall cfg w, get_model (unset_falsy cfg) w = get_model cfg w)
  /\ (forall a w,
        fst (load (with_config (unset_falsy (config a)) a, w)) = fst (load (a, w))
        /\ snd (snd (load (with_config (unset_falsy (config a)) a, w)))
           = snd (snd (load (a, w)))
        /\ _tools (fst (snd (load (with_config (unset_falsy (config a)) a, w))))
           = _tools (fst (snd (load (a, w))))
        /\ _agent (fst (snd (load (with_config (unset_falsy (config a)) a, w))))
           = _agent (fst (snd (load (a, w))))).
Proof.
  repeat apply conj.
  - intros a w a' w' H.
    destruct (load_success_inv _ _ _ _ H)
      as (_ & imported & aux & w1 & llm & w2 & agent & _ & _ & _ & Hc & ->).
    exists (py_or (agent_type (config a)) FunctionAgent),
      (agent_kwargs (config a) imported llm), w2, agent.
    repeat apply conj.
    + exact Hc.
    + reflexivity.
    + intros E. cbn. rewrite E. reflexivity.
    + apply py_or_falsy.
    + intros E. cbn. apply py_or_falsy. exact E.
  - intros cfg w Av.
    exists (py_or (model_type cfg) LiteLLM), (model_kwargs cfg).
    repeat apply conj.
    + apply get_model_default. exact Av.
    + apply py_or_falsy.
    + intros E. cbn. apply py_or_falsy. exact E.
  - intros cfg.
    repeat apply conj; intros E; cbn; apply unset_if_falsy_falsy; exact E.
  - apply get_model_unset_falsy.
  - apply load_unset_falsy.
Qed.

(** *** Load: every path *)

Lemma in_agent_keywords (k : string) :
  existsb (String.eqb k) agent_keywords = true <-> In k agent_keywords.
Proof.
  rewrite existsb_exists. split.
  - intros (x & Hin & Heq). apply String.eqb_eq in Heq. subst x. exact Hin.
  - intros Hin. exists k. split; [exact Hin | apply String.eqb_refl].
Qed.

Lemma duplicate_keyword_none (extra : PyDict) :
  (forall k, In k (map fst extra) -> ~ In k agent_keywords) ->
  duplicate_keyword extra = None.
Proof.
  intros Hno. unfold duplicate_keyword.
  destruct (find _ extra) as [[k v]|] eqn:Ef; [|reflexivity].
  apply find_some in Ef. destruct Ef as [Hin Hk]. cbn [fst] in Hk.
  apply in_agent_keywords in Hk.
  exfalso. apply (Hno k); [|exact Hk].
  apply in_map_iff. exists (k, v). split; [reflexivity | exact Hin].
Qed.

Lemma duplicate_keyword_some (extra : PyDict) (k : string) :
  In k (map fst extra) -> In k agent_keywords ->
  exists k', duplicate_keyword extra = Some k'
             /\ In k' (map fst extra) /\ In k' agent_keywords.
Proof.
  intros Hin Hk. unfold duplicate_keyword.
  destruct (find (fun kv => existsb (String.eqb (fst kv)) agent_keywords) extra)
    as [[k' v']|] eqn:Ef.
  - exists k'. apply find_some in Ef. destruct Ef as [Hin' Hk']. cbn [fst] in Hk'.
    repeat apply conj.
    + reflexivity.
    + apply in_map_iff. exists (k', v'). split; [reflexivity | exact Hin'].
    + apply in_agent_keywords. exact Hk'.
  - exfalso. apply in_map_iff in Hin. destruct Hin as ([k0 v0] & Hfst & Hin0).
    cbn [fst] in Hfst. subst k0.
    pose proof (find_none _ _ Ef _ Hin0) as Hf. cbn [fst] in Hf.
    apply in_agent_keywords in Hk. rewrite Hk in Hf. discriminate Hf.
Qed.

(** [load] once the tools are resolved: the model class, the unpacking
    of [agent_args], the agent class. *)
Lemma load_after_tools a w imported aux w1 :
  llama_index_available = true ->
  load_tools (tools (config a)) w = (inr (imported, aux), w1) ->
  load (a, w) =
  match call_model_type (py_or (model_type (config a)) LiteLLM)
          (model_kwargs (config a)) w1 with
  | (inl e, w2) =>
      (inl e, ({| config := config a; _tools := imported; _agent := _agent a |}, w2))
  | (inr llm, w2) =>
      match duplicate_keyword (py_or (agent_args (config a)) []) with
      | Some k =>
          (inl (TypeError (callable_name (py_or (agent_type (config a)) FunctionAgent)
                             ++ "() got multiple values for keyword argument '"
                             ++ k ++ "'")),
           ({| config := config a; _tools := imported; _agent := _agent a |}, w2))
      | None =>
          match call_agent_type (py_or (agent_type (config a)) FunctionAgent)
                  (agent_kwargs (config a) imported llm) w2 with
          | (inl e, w3) =>
              (inl e, ({| config := config a; _tools := imported; _agent := _agent a |}, w3))
          | (inr agent, w3) =>
              (inr tt, ({| config := config a; _tools := imported; _agent := Some agent |}, w3))
          end
      end
  end.
Proof.
  intros Av Et. rewrite (load_available _ _ Av). unfold load_outcome.
  rewrite Et. cbv zeta. rewrite (get_model_default _ _ Av).
  destruct (call_model_type _ _ w1) as [[e|llm] w2]; [reflexivity|].
  unfold unpack_kwargs, raise, ret.
  destruct (duplicate_keyword (py_or (agent_args (config a)) [])); reflexivity.
Qed.

(** When the backend is available, the tool loader resolves the tools,
    the model class and the agent class return, and no key of [agent_args]
    repeats a keyword written in the call, [load] succeeds: it stores the
    resolved tools and the agent returned, and leaves the world as the
    agent class left it. *)
Theorem load_succeeds a w imported aux w1 llm w2 agent w3 :
  llama_index_available = true ->
  load_tools (tools (config a)) w = (inr (imported, aux), w1) ->
  call_model_type (py_or (model_type (config a)) LiteLLM) (model_kwargs (config a)) w1
  = (inr llm, w2) ->
  (forall d k, agent_args (config a) = Some d -> In k (map fst d) -> ~ In k agent_keywords) ->
  call_agent_type (py_or (agent_type (config a)) FunctionAgent)
    (agent_kwargs (config a) imported llm) w2 = (inr agent, w3) ->
  load (a, w)
  = (inr tt, ({| config := config a; _tools := imported; _agent := Some agent |}, w3)).
Proof.
  intros Av Et Em Hno Ec.
  rewrite (load_after_tools _ _ _ _ _ Av Et), Em.
  rewrite duplicate_keyword_none, Ec; [reflexivity|].
  rewrite py_or_dict. intros k Hin.
  destruct (agent_args (config a)) as [d|] eqn:Ed; cbn in Hin; [|contradiction].
  exact (Hno d k eq_refl Hin).
Qed.





(** [_get_model] on its own.  A truthy configured [model_type] is called
    whether or not the backend is available; without one, and with the
    backend unavailable, the default does not exist: the factory raises
    [NameError] and calls nothing. *)
Theorem get_model_without_default cfg w :
  (forall cls, model_type cfg = Some cls -> callable_bool cls = true ->
               get_model cfg w = call_model_type cls (model_kwargs cfg) w)
  /\ (llama_index_available = false ->
      truthy (model_type cfg) = false ->
      get_model cfg w
      = (inl (NameError "name 'DEFAULT_MODEL_TYPE' is not defined"), w)).
Proof.
  split.
  - intros cls Ety Hb. unfold _get_model, bind, or_global. rewrite Ety.
    cbv [truthy Truthy_option Truthy_Callable]. rewrite Hb. reflexivity.
  - intros Nv Hf. unfold _get_model, bind, or_global, DEFAULT_MODEL_TYPE.
    rewrite Hf, Nv. reflexivity.
Qed.

(** *** Run: every path *)

Lemma first_block_text_value {S T : Type} (r : ChatMessage) (s : S) (t : T) :
  fst (first_block_text r s) = fst (first_block_text r t).
Proof.
  unfold first_block_text.
  destruct (nth_error (blocks r) 0) as [b0|]; [|reflexivity].
  destruct (getattr b0 "text"); reflexivity.
Qed.


Lemma run_same_agent a1 a2 w prompt kwargs :
  _agent a1 = _agent a2 ->
  fst (run prompt kwargs (a1, w)) = fst (run prompt kwargs (a2, w))
  /\ snd (snd (run prompt kwargs (a1, w))) = snd (snd (run prompt kwargs (a2, w))).
Proof.
  intros E. destruct (_agent a1) as [agent|] eqn:E1; symmetry in E.
  - destruct (agent_bool agent) eqn:Hb.
    + rewrite (run_loaded _ _ _ _ _ E1 Hb), (run_loaded _ _ _ _ _ E Hb).
      destruct (agent_run agent prompt kwargs w) as [[e|result] w']; [split; reflexivity|].
      destruct (invalid_response (response result)); [split; reflexivity|].
      rewrite !first_block_text_state. split; [apply first_block_text_value | reflexivity].
    + rewrite (run_falsy_agent _ _ _ _ _ E1 Hb), (run_falsy_agent _ _ _ _ _ E Hb).
      split; reflexivity.
  - rewrite (run_not_loaded _ _ _ _ E1), (run_not_loaded _ _ _ _ E). split; reflexivity.
Qed.


(** The guard is a truth test: a stored agent whose [bool] is false is
    taken for no agent.  The run raises the not-loaded error, does not
    call the backend, and changes nothing. *)
Theorem run_falsy_agent_not_loaded a w agent prompt kwargs :
  _agent a = Some agent ->
  agent_bool agent = false ->
  run prompt kwargs (a, w)
  = (inl (ValueError "Agent not loaded. Call load_agent() first."), (a, w)).
Proof.
  intros Ea Hb. exact (run_falsy_agent a w agent prompt kwargs Ea Hb).
Qed.


(** [_run_async] reads nothing of the adapter but [_agent]: two adapters
    holding the same agent, whatever their configurations and tools, give
    the same outcome and leave the same world. *)
Theorem run_reads_only_agent a1 a2 w prompt kwargs :
  _agent a1 = _agent a2 ->
  fst (run prompt kwargs (a1, w)) = fst (run prompt kwargs (a2, w))
  /\ snd (snd (run prompt kwargs (a1, w))) = snd (snd (run prompt kwargs (a2, w))).
Proof.
  apply run_same_agent.
Qed.

(** *** Load and run together *)

(** A fresh adapter, one load, one run, end to end: when the collaborators
    of the load return, the new agent is truthy and answers with a text
    block first, the load returns, the run returns that text, and the
    adapter ends up holding the resolved tools and the new agent. *)
Theorem load_then_run cfg tracing w imported aux w1 llm w2 agent w3
    prompt kwargs result w4 b0 rest v :
  llama_index_available = true ->
  load_tools (tools cfg) w = (inr (imported, aux), w1) ->
  call_model_type (py_or (model_type cfg) LiteLLM) (model_kwargs cfg) w1 = (inr llm, w2) ->
  duplicate_keyword (py_or (agent_args cfg) []) = None ->
  call_agent_type (py_or (agent_type cfg) FunctionAgent)
    (agent_kwargs cfg imported llm) w2 = (inr agent, w3) ->
  agent_bool agent = true ->
  agent_run agent prompt kwargs w3 = (inr result, w4) ->
  blocks (response result) = b0 :: rest ->
  getattr b0 "text" = Some v ->
  fst (history [Load; Run prompt kwargs] (new cfg tracing, w))
  = [(Load, inr None); (Run prompt kwargs, inr (Some v))]
  /\ _tools (fst (snd (history [Load; Run prompt kwargs] (new cfg tracing, w)))) = imported
  /\ _agent (fst (snd (history [Load; Run prompt kwargs] (new cfg tracing, w)))) = Some agent
  /\ snd (snd (history [Load; Run prompt kwargs] (new cfg tracing, w))) = w4.
Proof.
  intros Av Et Em Ek Ec Hb Er Eb Etxt.
  assert (E : history [Load; Run prompt kwargs] (new cfg tracing, w)
              = ([(Load, inr None); (Run prompt kwargs, inr (Some v))],
                 ({| config := cfg; _tools := imported; _agent := Some agent |}, w4))).
  2:{ rewrite E. repeat apply conj; reflexivity. }
  cbn [session]. unfold invoke at 1. unfold bind at 1.
  rewrite (load_after_tools (new cfg tracing) w imported aux w1 Av Et). cbn [config __init__].
  rewrite Em, Ek, Ec. cbn [ret].
  unfold invoke at 1. unfold bind at 1.
  rewrite (run_loaded {| config := cfg; _tools := imported; _agent := Some agent |}
             w3 agent prompt kwargs eq_refl Hb), Er.
  destruct (valid_first_text (response result) b0 rest v
              ({| config := cfg; _tools := imported; _agent := Some agent |}, w4) Eb Etxt)
    as [Hv Hf].
  rewrite Hv, Hf. reflexivity.
Qed.

(** Over any sequence of loads and runs, from any state: an adapter that
    holds an agent keeps holding one, failed reloads included; and a
    sequence of runs alone leaves the adapter exactly as it was. *)
Theorem session_invariants (ops : list Op) (s : @Self ToolSpec Tool BaseWorkflowAgent World) :
  (is_loaded (fst s) = true -> is_loaded (fst (snd (history ops s))) = true)
  /\ ((forall op, In op ops -> op <> Load) -> fst (snd (history ops s)) = fst s).
Proof.
  split.
  - intros Hl. rewrite history_loaded, Hl. reflexivity.
  - revert s. induction ops as [|op ops IH]; intros s Hruns; cbn [session]; [reflexivity|].
    destruct op as [|prompt kwargs].
    { exfalso. apply (Hruns Load); [left; reflexivity | reflexivity]. }
    destruct s as [a w]. unfold invoke, bind.
    pose proof (run_keeps_adapter a w prompt kwargs) as Hrun.
    destruct (run prompt kwargs (a, w)) as [[e|v] [a' w']]; cbn [fst snd] in Hrun; subst a'.
    + specialize (IH (a, w') (fun op Hin => Hruns op (or_intror Hin))).
      destruct (history ops (a, w')) as [log s'']. exact IH.
    + specialize (IH (a, w') (fun op Hin => Hruns op (or_intror Hin))).
      cbn [ret]. destruct (history ops (a, w')) as [log s'']. exact IH.
Qed.

(** A reload that fails leaves the agent of the earlier load in place,
    and later runs behave as if the reload had not been attempted: same
    outcome and same effect as on the adapter before the reload. *)
Theorem failed_reload_keeps_agent a w e a' w' prompt kwargs :
  load (a, w) = (inl e, (a', w')) ->
  _agent a' = _agent a
  /\ fst (run prompt kwargs (a', w')) = fst (run prompt kwargs (a, w'))
  /\ snd (snd (run prompt kwargs (a', w'))) = snd (snd (run prompt kwargs (a, w'))).
Proof.
  intros H. pose proof (load_agent_after a w) as Hl. rewrite H in Hl. cbn [fst snd] in Hl.
  split; [exact Hl|]. apply run_same_agent. exact Hl.
Qed.

(** A [load] that succeeded found no key of [agent_args] among the
    keywords written in the call: such a key always makes it fail. *)
Theorem load_success_no_repeated_keyword a w a' w' d k :
  load (a, w) = (inr tt, (a', w')) ->
  agent_args (config a) = Some d ->
  In k (map fst d) ->
  ~ In k agent_keywords.
Proof.
  intros H Ed Hin Hk.
  destruct (load_success_inv _ _ _ _ H)
    as (_ & imported & aux & w1 & llm & w2 & agent & _ & _ & Edup & _).
  rewrite py_or_dict, Ed in Edup. cbn [default_when_unset] in Edup.
  destruct (duplicate_keyword_some d k Hin Hk) as (k' & Edup' & _).
  rewrite Edup in Edup'. discriminate Edup'.
Qed.

End Properties.

(** C4. With the backend unavailable, [load] raises the [ImportError]
    that tells how to install it, for every configuration and adapter
    state; the adapter and the world are untouched and the outcome is the
    same whatever the tool loader and the classes would do: none of them is
    consulted. *)
Theorem load_unavailable :
  forall (ToolSpec Tool Aux Aux' LLM BaseWorkflowAgent World : Type)
         (load_tools : list ToolSpec -> M World (list Tool * Aux))
         (load_tools' : list ToolSpec -> M World (list Tool * Aux'))
         (call_model_type call_model_type' : Callable -> ModelKwargs -> M World LLM)
         (call_agent_type call_agent_type' :
            Callable -> @AgentKwargs Tool LLM -> M World BaseWorkflowAgent)
         (a : @LlamaIndexAgent ToolSpec Tool BaseWorkflowAgent) (w : World),
    _load_agent false load_tools call_model_type call_agent_type (a, w)
    = (inl (ImportError
              "You need to `pip install 'any-agent[llama_index]'` to use this agent"),
       (a, w))
    /\ _load_agent false load_tools call_model_type call_agent_type (a, w)
       = _load_agent false load_tools' call_model_type' call_agent_type' (a, w).
Proof.
  intros. split; reflexivity.
Qed.

(** ** The properties on the recording backend *)



Lemma run_before_load_witness :
  Recording.run "" [] (Recording.new Recording.cfg0, [])
  = (inl NotLoaded, (Recording.new Recording.cfg0, [])).
Proof.
  exact (proj2 (run_before_load Recording.agent_bool Recording.agent_run Recording.ChatMessage_str
                  (Recording.new Recording.cfg0) [] "hello" [] eq_refl)).
Defined.

Lemma model_factory_field_mapping_witness :
  _get_model true Recording.call_model_type Recording.cfg0 ["start"]
  = _get_model true Recording.call_model_type Recording.missing_tool ["start"].
Proof.
  exact (proj2 (model_factory_field_mapping true Recording.call_model_type
                  Recording.cfg0 Recording.missing_tool
                  eq_refl eq_refl eq_refl eq_refl)
           eq_refl ["start"]).
Defined.

Lemma load_constructs_agent_witness :
  exists imported aux w1 llm w2 agent,
    Recording._load_tools ["search"] [] = (inr (imported, aux), w1) /\
    _get_model true Recording.call_model_type Recording.empty_description w1
    = (inr llm, w2) /\
    Recording.call_agent_type FunctionAgent
      {| kw_name := "any_agent";
         kw_tools := imported;
         kw_description := "The main agent";
         kw_llm := llm;
         kw_system_prompt := Some "Be brief.";
         kw_extra := [] |} w2
    = (inr agent, snd (Recording.loaded Recording.empty_description)) /\
    fst (Recording.loaded Recording.empty_description)
    = {| config := Recording.empty_description; _tools := imported; _agent := Some agent |}.
Proof.
  exact (load_constructs_agent true Recording._load_tools Recording.call_model_type
           Recording.call_agent_type
           (Recording.new Recording.empty_description) []
           (fst (Recording.loaded Recording.empty_description))
           (snd (Recording.loaded Recording.empty_description))
           eq_refl).
Defined.

Lemma load_tools_error_propagates_witness :
  Recording.load true (Recording.new Recording.missing_tool, [])
  = (inl Recording.ToolNotFound, (Recording.new Recording.missing_tool, ["load_tools"])).
Proof.
  exact (load_tools_error_propagates true Recording._load_tools Recording.call_model_type
           Recording.call_agent_type
           (Recording.new Recording.missing_tool) [] Recording.ToolNotFound ["load_tools"]
           eq_refl eq_refl).
Defined.

Lemma load_state_machine_witness :
  Recording.run "hello" []
    (snd (session true Recording._load_tools Recording.call_model_type
            Recording.call_agent_type Recording.agent_bool Recording.agent_run Recording.ChatMessage_str
            [Run "hello" []; Run "" []] (Recording.new Recording.cfg0, [])))
  = (inl NotLoaded, (Recording.new Recording.cfg0, []))
  /\ exists cls kw w2 agent,
       Recording.call_agent_type cls kw w2
       = (inr agent, snd (snd (Recording.load true (Recording.loaded Recording.cfg0))))
       /\ _agent (fst (snd (Recording.load true (Recording.loaded Recording.cfg0))))
          = Some agent.
Proof.
  pose proof (load_state_machine (TracingConfig := unit) true Recording._load_tools Recording.call_model_type
                Recording.call_agent_type Recording.agent_bool Recording.agent_run Recording.ChatMessage_str [])
    as (_ & _ & Hrun & Hload & _).
  split.
  - exact (Hrun [Run "hello" []; Run "" []] Recording.cfg0 (@None unit) [] "hello" []
             eq_refl).
  - exact (Hload (fst (Recording.loaded Recording.cfg0))
             (snd (Recording.loaded Recording.cfg0))
             (fst (snd (Recording.load true (Recording.loaded Recording.cfg0))))
             (snd (snd (Recording.load true (Recording.loaded Recording.cfg0))))
             eq_refl).
Defined.

Lemma defaulting_by_falsiness_witness :
  exists cls kw w2 agent,
    Recording.call_agent_type cls kw w2
    = (inr agent, snd (Recording.loaded Recording.empty_description))
    /\ _agent (fst (Recording.loaded Recording.empty_description)) = Some agent
    /\ kw_description kw = "The main agent".
Proof.
  destruct (proj1 (defaulting_by_falsiness true Recording._load_tools
                     Recording.call_model_type Recording.call_agent_type)
              (Recording.new Recording.empty_description) []
              (fst (Recording.loaded Recording.empty_description))
              (snd (Recording.loaded Recording.empty_description))
              eq_refl)
    as (cls & kw & w2 & agent & Hc & Ha & Hd & _).
  exists cls, kw, w2, agent.
  split; [exact Hc | split; [exact Ha | exact (Hd eq_refl)]].
Defined.

(** C6, as the specification words it, fails on an empty description: the
    agent that a load stores was built with "The main agent", not with the
    configured (empty) description. *)
Lemma load_as_documented_fails_on_empty_description :
  ~ load_as_documented true Recording._load_tools Recording.call_model_type
      Recording.call_agent_type (Recording.new Recording.empty_description) [].
Proof.
  intros H.
  destruct (H (fst (Recording.loaded Recording.empty_description))
              (snd (Recording.loaded Recording.empty_description)) eq_refl)
    as (imported & aux & w1 & llm & w2 & agent & _ & _ & Hc & Ha).
  unfold Recording.call_agent_type, Recording.log in Hc.
  injection Hc as Hagent _.
  apply (f_equal (@_agent _ _ _)) in Ha. cbn in Ha.
  rewrite <- Hagent in Ha. discriminate Ha.
Qed.

(** ** The further properties on the recording and the failing backends *)

Lemma load_succeeds_witness :
  exists agent w3,
    Faulty.load (Recording.new Faulty.extra_args, [])
    = (inr tt,
       ({| config := Faulty.extra_args;
           _tools := ["tool:search"; "tool:calc"];
           _agent := Some agent |}, w3)).
Proof.
  eexists. eexists.
  refine (load_succeeds true Recording._load_tools Faulty.call_model_type
            Faulty.call_agent_type (Recording.new Faulty.extra_args) []
            _ _ _ _ _ _ _ eq_refl eq_refl eq_refl _ eq_refl).
  intros d k Hd Hin Hk. injection Hd as <-.
  cbn in Hin, Hk.
  destruct Hin as [<-|[<-|[]]];
    repeat (destruct Hk as [Hk|Hk]; [discriminate Hk|]); exact Hk.
Defined.





Lemma get_model_without_default_witness :
  _get_model false Faulty.call_model_type Faulty.broken_model ["start"]
  = Faulty.call_model_type Faulty.BrokenLLM (model_kwargs Faulty.broken_model) ["start"]
  /\ _get_model false Recording.call_model_type Recording.cfg0 ["start"]
     = (inl (NameError "name 'DEFAULT_MODEL_TYPE' is not defined"), ["start"]).
Proof.
  split.
  - exact (proj1 (get_model_without_default false Faulty.call_model_type
                    Faulty.broken_model ["start"])
             Faulty.BrokenLLM eq_refl eq_refl).
  - exact (proj2 (get_model_without_default false Recording.call_model_type
                    Recording.cfg0 ["start"])
             eq_refl eq_refl).
Defined.



Lemma run_reads_only_agent_witness :
  fst (Recording.run "hello" [] (Recording.loaded Recording.cfg0))
  = fst (Recording.run "hello" []
           (with_config Faulty.broken_model (fst (Recording.loaded Recording.cfg0)),
            snd (Recording.loaded Recording.cfg0)))
  /\ snd (snd (Recording.run "hello" [] (Recording.loaded Recording.cfg0)))
     = snd (snd (Recording.run "hello" []
                   (with_config Faulty.broken_model (fst (Recording.loaded Recording.cfg0)),
                    snd (Recording.loaded Recording.cfg0)))).
Proof.
  exact (run_reads_only_agent Recording.agent_bool Recording.agent_run Recording.ChatMessage_str
           (fst (Recording.loaded Recording.cfg0))
           (with_config Faulty.broken_model (fst (Recording.loaded Recording.cfg0)))
           (snd (Recording.loaded Recording.cfg0)) "hello" [] eq_refl).
Defined.

Lemma load_then_run_witness :
  fst (session true Recording._load_tools Recording.call_model_type Recording.call_agent_type
         Recording.agent_bool Recording.agent_run Recording.ChatMessage_str
         [Load; Run "hello" []] (Recording.new Recording.cfg0, []))
  = [(Load, inr None); (Run "hello" [], inr (Some (PyStr "hello")))].
Proof.
  exact (proj1 (load_then_run true Recording._load_tools Recording.call_model_type
           Recording.call_agent_type Recording.agent_bool Recording.agent_run Recording.ChatMessage_str []
           Recording.cfg0 (@None unit) [] _ tt _ _ _ _ _ "hello" [] _ _
           (Recording.text_block "hello") [] (PyStr "hello")
           eq_refl eq_refl eq_refl eq_refl eq_refl eq_refl eq_refl eq_refl eq_refl)).
Defined.

Lemma session_invariants_witness :
  is_loaded
    (fst (snd (session true Faulty._load_tools Recording.call_model_type
                 Recording.call_agent_type Recording.agent_bool Recording.agent_run Recording.ChatMessage_str
                 [Load; Run "crash" []; Load] Faulty.after_first_load)))
  = true
  /\ fst (snd (session true Faulty._load_tools Recording.call_model_type
                 Recording.call_agent_type Recording.agent_bool Recording.agent_run Recording.ChatMessage_str
                 [Run "hello" []; Run "" []] Faulty.after_first_load))
     = fst Faulty.after_first_load.
Proof.
  split.
  - exact (proj1 (session_invariants true Faulty._load_tools
                           Recording.call_model_type Recording.call_agent_type
                           Recording.agent_bool Recording.agent_run Recording.ChatMessage_str
                           [Load; Run "crash" []; Load] Faulty.after_first_load)
             eq_refl).
  - refine (proj2 (session_invariants true Faulty._load_tools
                            Recording.call_model_type Recording.call_agent_type
                            Recording.agent_bool Recording.agent_run Recording.ChatMessage_str
                            [Run "hello" []; Run "" []] Faulty.after_first_load)
              _).
    intros op [<-|[<-|[]]]; discriminate.
Defined.

Lemma failed_reload_keeps_agent_witness :
  _agent (fst (snd (Faulty.load_once Faulty.after_first_load)))
  = _agent (fst Faulty.after_first_load)
  /\ fst (Recording.run "hello" [] (snd (Faulty.load_once Faulty.after_first_load)))
     = inr (PyStr "hello").
Proof.
  destruct (failed_reload_keeps_agent true Faulty._load_tools Recording.call_model_type
              Recording.call_agent_type Recording.agent_bool Recording.agent_run Recording.ChatMessage_str
              (fst Faulty.after_first_load) (snd Faulty.after_first_load)
              Faulty.ConnectionError
              (fst (snd (Faulty.load_once Faulty.after_first_load)))
              (snd (snd (Faulty.load_once Faulty.after_first_load)))
              "hello" [] eq_refl) as (Ha & Hr & _).
  split; [exact Ha | exact Hr].
Defined.

Lemma load_success_no_repeated_keyword_witness :
  ~ In "timeout" agent_keywords.
Proof.
  exact (load_success_no_repeated_keyword true Recording._load_tools Faulty.call_model_type
           Faulty.call_agent_type (Recording.new Faulty.extra_args) []
           (fst (snd (Faulty.load (Recording.new Faulty.extra_args, []))))
           (snd (snd (Faulty.load (Recording.new Faulty.extra_args, []))))
           [("timeout", PyInt 30); ("verbose", PyBool true)] "timeout"
           eq_refl eq_refl (or_introl eq_refl)).
Defined.

(** ** A stored agent that is falsy *)

(** Loading the configuration with the user's [ToolBox] class and no tool
    succeeds and stores an agent, which is falsy. *)
Example empty_toolbox_loads :
  fst (Recording.load true (Recording.new Recording.empty_toolbox, [])) = inr tt
  /\ exists agent,
       _agent (fst (Recording.loaded Recording.empty_toolbox)) = Some agent
       /\ Recording.agent_bool agent = false.
Proof.
  split; [reflexivity|]. eexists. split; reflexivity.
Qed.



Lemma run_falsy_agent_not_loaded_witness :
  Recording.run "hello" [] (Recording.loaded Recording.empty_toolbox)
  = (inl NotLoaded, Recording.loaded Recording.empty_toolbox).
Proof.
  exact (run_falsy_agent_not_loaded Recording.agent_bool Recording.agent_run
           Recording.ChatMessage_str
           (fst (Recording.loaded Recording.empty_toolbox))
           (snd (Recording.loaded Recording.empty_toolbox))
           _ "hello" [] eq_refl eq_refl).
Defined.
